(** * WeaTrip MCP web server: the HTTP facade of [web_server.py]

    A shallow embedding of the request handlers, the lifecycle hooks and the
    script entry point of [Our_Agent/Web/web_server.py], with the properties
    of the boundary between the web layer and the MCP client.

    The class [DeepSeekMCPClient] is imported from a module that is not part
    of the sources at hand, so the client is an interface ([MCPClient]) and
    every statement quantifies over its implementations. *)

From Stdlib Require Import Ascii.
From stdpp Require Import base option list strings gmap.

Set Default Proof Using "Type".
Open Scope string_scope.

(** ** Python values the handlers deal with *)

(** Outcome of a call: it returns a value or raises. *)
Inductive result (E A : Type) : Type :=
| Return (a : A)
| Raise (e : E).
Arguments Return {E A} a.
Arguments Raise {E A} e.

(** Exceptions that travel through the [try] blocks of the module. What the
    handlers look at is the class test of [except Exception] and the text of
    [str(e)]. [FileNotFoundError] is the one the module raises itself;
    [Raised] is whatever a client method raises: [in_Exception] tells
    whether its class derives from [Exception] ([asyncio.CancelledError],
    [KeyboardInterrupt] and [SystemExit] derive from [BaseException] only). *)
Inductive exc : Type :=
| FileNotFoundError (msg : string)
| Raised (in_Exception : bool) (text : string).

(** [isinstance(e, Exception)] *)
Definition isinstance_Exception (e : exc) : bool :=
  match e with
  | FileNotFoundError _ => true
  | Raised b _ => b
  end.

(** [str(e)] *)
Definition str (e : exc) : string :=
  match e with
  | FileNotFoundError msg => msg
  | Raised _ text => text
  end.

(** The object behind [mcp_client.session]: an open channel to the tool
    server. Any such object is truthy. *)
Inductive ClientSession : Type :=
| Channel (id : nat).

(** Truth value of an [Optional] object reference: [None] is falsy. *)
Definition truthy {A : Type} (o : option A) : bool :=
  match o with
  | Some _ => true
  | None => false
  end.

(** ** The MCP client, as the web layer uses it

    A value of type [C] is the state of one client object. A method takes
    the state before the call and gives the outcome together with the state
    after it: a call that raises may still have changed the object. *)
Class MCPClient (C : Type) : Type := {
  (** attribute [session] *)
  session : C → option ClientSession;
  (** [DeepSeekMCPClient()] *)
  DeepSeekMCPClient : result exc C;
  (** [await client.connect_to_server(path)] *)
  connect_to_server : C → string → result exc unit * C;
  (** [await client.process_query(message)] *)
  process_query : C → string → result exc string * C;
  (** [await client.cleanup()] *)
  cleanup : C → result exc unit * C
}.

(** ** Request and response models *)

Record ChatRequest : Type := { message : string }.

Record ChatResponse : Type := {
  reply : string;
  success : bool;
  error : option string
}.

(** A JSON object body, as the [dict] literal a handler returns. *)
Inductive json : Type :=
| JStr (s : string)
| JBool (b : bool).

Definition dict : Type := list (string * json).

Fixpoint dict_get (d : dict) (key : string) : option json :=
  match d with
  | [] => None
  | (k, v) :: rest => if String.eqb k key then Some v else dict_get rest key
  end.

(** ** Module state and the handler monad *)

(** The global [mcp_client] and what has been printed so far. The global
    is the only reference to the client object, so the object's state is
    kept in the slot itself. *)
Record World (C : Type) : Type := {
  mcp_client : option C;
  stdout : list string
}.
Arguments mcp_client {C} w.
Arguments stdout {C} w.

(** What the handlers read from the outside: the directory of the module
    and the paths that exist on the file system. *)
Record Host : Type := {
  project_root : string;
  files : gset string
}.

(** [p / name] on [pathlib.Path] *)
Definition path_join (p name : string) : string := p +:+ "/" +:+ name.
Infix "//" := path_join (at level 40, left associativity).

(** [path.exists()] *)
Definition exists_ (h : Host) (path : string) : bool :=
  bool_decide (path ∈ files h).

Section Handlers.
Context {C : Type} {impl : MCPClient C}.

(** A handler body: from the world before to an outcome and the world
    after. *)
Definition M (A : Type) : Type := World C → result exc A * World C.

#[export] Instance M_ret : MRet M := λ A a w, (Return a, w).

(** Sequencing: a raise skips the rest, the world is kept as it is then. *)
#[export] Instance M_bind : MBind M := λ A B k m w,
  match m w with
  | (Return a, w') => k a w'
  | (Raise e, w') => (Raise e, w')
  end.

Definition raise {A} (e : exc) : M A := λ w, (Raise e, w).

(** An expression that is evaluated without touching the module state. *)
Definition eval {A} (r : result exc A) : M A := λ w, (r, w).

(** [try: body / except Exception as e: handler e]: only an exception whose
    class derives from [Exception] reaches the handler. *)
Definition try_except {A} (body : M A) (handler : exc → M A) : M A :=
  λ w, match body w with
       | (Return a, w') => (Return a, w')
       | (Raise e, w') =>
           if isinstance_Exception e then handler e w' else (Raise e, w')
       end.

Definition print (line : string) : M unit :=
  λ w, (Return tt, {| mcp_client := mcp_client w; stdout := stdout w ++ [line] |}).

(** [global mcp_client] read and write *)
Definition get_client : M (option C) := λ w, (Return (mcp_client w), w).

Definition set_client (c : option C) : M unit :=
  λ w, (Return tt, {| mcp_client := c; stdout := stdout w |}).

(** A method call on the object the global refers to: the state after the
    call goes back into the slot, whether the call returned or raised. *)
Definition call {A} (method : C → result exc A * C) (c : C) : M A :=
  λ w, let (r, c') := method c in
       (r, {| mcp_client := Some c'; stdout := stdout w |}).

End Handlers.

Section Endpoints.
Context {C : Type} {impl : MCPClient C}.

(** [POST /api/chat] *)
Definition chat_endpoint (request : ChatRequest) : M ChatResponse :=
  client ← get_client;
  match client with
  | None =>
      mret {| reply := "❌ 服务器未正确初始化，请稍后再试";
             success := false;
             error := Some "MCP客户端未初始化" |}
  | Some c =>
      try_except
        (print ("收到用户消息: " +:+ message request);;
         response ← call (λ c, process_query c (message request)) c;
         print ("MCP客户端响应: " +:+ response);;
         mret {| reply := response; success := true; error := None |})
        (λ e,
           let error_msg := "处理请求时出错: " +:+ str e in
           print ("❌ " +:+ error_msg);;
           mret {| reply := "❌ 抱歉，处理您的请求时出现了错误，请稍后再试";
                  success := false;
                  error := Some error_msg |})
  end.

(** [@app.on_event("startup")] *)
Definition weather_server_path (h : Host) : string :=
  project_root h // "weather" // "weather.py".

Definition startup_event (h : Host) : M unit :=
  try_except
    (print "正在初始化MCP客户端...";;
     c ← eval DeepSeekMCPClient;
     set_client (Some c);;
     if exists_ h (weather_server_path h) then
       call (λ c, connect_to_server c (weather_server_path h)) c;;
       print "✅ MCP客户端初始化成功，已连接到天气服务器"
     else
       print ("❌ 天气服务器文件不存在: " +:+ weather_server_path h);;
       raise (FileNotFoundError
                ("天气服务器文件不存在: " +:+ weather_server_path h)))
    (λ e,
       print ("❌ MCP客户端初始化失败: " +:+ str e);;
       set_client None).

(** [@app.on_event("shutdown")] *)
Definition shutdown_event : M unit :=
  client ← get_client;
  match client with
  | Some c =>
      try_except
        (call cleanup c;;
         print "✅ MCP客户端资源已清理")
        (λ e, print ("❌ 清理MCP客户端资源时出错: " +:+ str e))
  | None => mret tt
  end.

(** [GET /api/health] *)
Definition health_check (w : World C) : dict :=
  [ ("status", JStr "healthy");
    ("mcp_client_ready", JBool (truthy (mcp_client w)));
    ("message", JStr "WeaTrip MCP Web Server is running") ].

(** [GET /api/status]: [mcp_client and mcp_client.session] *)
Definition status_check (w : World C) : dict :=
  if match mcp_client w with
     | Some c => truthy (session c)
     | None => false
     end
  then [ ("status", JStr "ready");
         ("message", JStr "MCP客户端已连接并准备就绪") ]
  else [ ("status", JStr "not_ready");
         ("message", JStr "MCP客户端未连接") ].

End Endpoints.

(** [GET /] *)
Record HTTPException : Type := {
  status_code : Z;
  detail : string
}.

Inductive Response : Type :=
| FileResponse (path : string).

Definition index_path (h : Host) : string :=
  project_root h // "web" // "index.html".

Definition serve_index (h : Host) : result HTTPException Response :=
  if exists_ h (index_path h) then
    Return (FileResponse (index_path h))
  else
    Raise {| status_code := 404; detail := "HTML文件不存在" |}.

(** ** The script entry point, [if __name__ == "__main__":] *)

(** What the script does, in order: lines printed, then either
    [sys.exit(code)] or the call of [uvicorn.run]. *)
Inductive event : Type :=
| Printed (line : string)
| SysExit (code : Z)
| UvicornRun (app host : string) (port : Z) (reload : bool)
             (log_level : string).

Definition required_env_vars : list string := ["API_KEY"; "BASE_URL"; "MODEL"].

(** [not os.getenv(var)]: an unset variable and an empty one are both
    falsy. *)
Definition not_getenv (environ : gmap string string) (var : string) : bool :=
  match environ !! var with
  | Some value => String.eqb value EmptyString
  | None => true
  end.

Definition newline : string := String (Ascii.ascii_of_nat 10) EmptyString.

Definition main (environ : gmap string string) : list event :=
  let missing_vars := List.filter (not_getenv environ) required_env_vars in
  match missing_vars with
  | _ :: _ =>
      [Printed "❌ 缺少必要的环境变量:"]
      ++ List.map (λ var, Printed ("   - " +:+ var)) missing_vars
      ++ [Printed (newline +:+ "请创建 .env 文件并设置这些变量");
          SysExit 1]
  | [] =>
      [Printed "🚀 启动WeaTrip MCP Web服务器...";
       Printed "📱 前端地址: http://localhost:8000";
       Printed "🔧 API文档: http://localhost:8000/docs";
       UvicornRun "web_server:app" "0.0.0.0" 8000 true "info"]
  end.

(** ** The system test script, [test_system.py]

    The script runs next to [web_server.py] and exercises the client, the
    weather tools and the imports. Its functions print their progress and
    return a boolean. The local variable [client] of [test_mcp_client] is
    the one client object of a run and is kept in the slot of the world. *)

(** [s[:n]] on text: the first [n] characters. A string holds the UTF-8
    bytes of the text, and a character goes on as long as the bytes are
    continuation bytes ([10xxxxxx]). *)
Definition is_continuation (a : Ascii.ascii) : bool :=
  match a with
  | Ascii.Ascii _ _ _ _ _ _ b6 b7 => b7 && negb b6
  end.

Fixpoint take_chars (n : nat) (s : string) : string :=
  match s with
  | EmptyString => EmptyString
  | String a rest =>
      if is_continuation a then String a (take_chars n rest)
      else match n with
           | O => EmptyString
           | S n' => String a (take_chars n' rest)
           end
  end.

(** [s.replace(old, new)] for one-character [old] and [new] *)
Fixpoint replace_char (old new : Ascii.ascii) (s : string) : string :=
  match s with
  | EmptyString => EmptyString
  | String a rest =>
      String (if Ascii.eqb a old then new else a) (replace_char old new rest)
  end.

(** [sep.join(parts)] *)
Fixpoint join (sep : string) (parts : list string) : string :=
  match parts with
  | [] => EmptyString
  | [part] => part
  | part :: rest => part +:+ sep +:+ join sep rest
  end.

(** [s * n] *)
Fixpoint repeat_string (s : string) (n : nat) : string :=
  match n with
  | O => EmptyString
  | S n' => s +:+ repeat_string s n'
  end.

(** What importing a module does: it succeeds, raises [ImportError] (the
    class [except ImportError] looks for, with its text), or raises
    something else. *)
Inductive import_outcome : Type :=
| Imported
| ImportError (msg : string)
| ImportRaised (e : exc).

(** What the test script finds around it: the host, the modules that can
    be imported, the two tools of the weather server and what
    [load_dotenv()] leaves in the environment. *)
Record Setup : Type := {
  host : Host;
  import_module : string → import_outcome;
  get_weather : string → string → result exc string;
  get_forecast : string → string → result exc string;
  load_dotenv : result exc (gmap string string)
}.

Module test_system.
Section Tests.
Context {C : Type} {impl : MCPClient C}.

(** An [import] statement inside a [try] with [except Exception]:
    [ImportError] derives from [Exception]. *)
Definition import_ (s : Setup) (name : string) : @M C unit :=
  match import_module s name with
  | Imported => mret tt
  | ImportError msg => raise (Raised true msg)
  | ImportRaised e => raise e
  end.

(** A method call whose continuation goes on with the state the object
    has after the call. *)
Definition call_then {A B} (method : C → result exc A * C) (c : C)
    (k : A → C → M B) : @M C B :=
  λ w, let (r, c') := method c in
       let w' := {| mcp_client := Some c'; stdout := stdout w |} in
       match r with
       | Return a => k a c' w'
       | Raise e => (Raise e, w')
       end.

Definition test_queries : list string :=
  ["北京今天天气怎么样？"; "上海未来3天天气预报"; "给我一个简单的天气报告"].

(** The loop over the queries: [Some c'] when every query was answered
    (the function goes on with the client in state [c']), [None] when one
    failed and the function returns [False]. *)
Fixpoint run_queries (c : C) (queries : list string) : @M C (option C) :=
  match queries with
  | [] => mret (Some c)
  | query :: rest =>
      print (newline +:+ "📝 测试查询: " +:+ query);;
      answered ←
        try_except
          (call_then (λ c, process_query c query) c (λ response c',
             print ("✅ 响应: " +:+ take_chars 100 response +:+ "...");;
             mret (Some c')))
          (λ e,
             print ("❌ 查询失败: " +:+ str e);;
             mret None);
      match answered with
      | Some c' => run_queries c' rest
      | None => mret None
      end
  end.

Definition test_mcp_client (s : Setup) : @M C bool :=
  print "🧪 测试MCP客户端...";;
  try_except
    (c ← eval DeepSeekMCPClient;
     set_client (Some c);;
     if negb (exists_ (host s) (weather_server_path (host s))) then
       print ("❌ 天气服务器文件不存在: " +:+ weather_server_path (host s));;
       mret false
     else
       call_then (λ c, connect_to_server c (weather_server_path (host s))) c
         (λ _ c1,
            print "✅ MCP客户端连接成功";;
            answered ← run_queries c1 test_queries;
            match answered with
            | None => mret false
            | Some c2 =>
                call cleanup c2;;
                print "✅ MCP客户端测试完成";;
                mret true
            end))
    (λ e,
       print ("❌ MCP客户端测试失败: " +:+ str e);;
       mret false).

Definition test_weather_server (s : Setup) : @M C bool :=
  print (newline +:+ "🧪 测试天气服务器...");;
  try_except
    (import_ s "weather";;
     print "📝 测试获取北京天气...";;
     weather_result ← eval (get_weather s "Beijing" "CN");
     print ("✅ 天气结果: " +:+ take_chars 100 weather_result +:+ "...");;
     print "📝 测试获取上海预报...";;
     forecast_result ← eval (get_forecast s "Shanghai" "CN");
     print ("✅ 预报结果: " +:+ take_chars 100 forecast_result +:+ "...");;
     print "✅ 天气服务器测试完成";;
     mret true)
    (λ e,
       print ("❌ 天气服务器测试失败: " +:+ str e);;
       mret false).

Definition test_web_server_import (s : Setup) : @M C bool :=
  print (newline +:+ "🧪 测试Web服务器导入...");;
  try_except
    (import_ s "web_server";;
     print "✅ Web服务器模块导入成功";;
     mret true)
    (λ e,
       print ("❌ Web服务器导入失败: " +:+ str e);;
       mret false).

Definition required_packages : list string :=
  ["fastapi"; "uvicorn"; "mcp"; "openai"; "httpx"; "python-dotenv"].

(** [package.replace("-", "_")] *)
Definition module_name (package : string) : string :=
  replace_char "-"%char "_"%char package.

(** The loop over the packages, with [missing_packages] so far: only
    [ImportError] is caught. *)
Fixpoint check_packages (s : Setup) (packages missing_packages : list string)
    : @M C (list string) :=
  match packages with
  | [] => mret missing_packages
  | package :: rest =>
      match import_module s (module_name package) with
      | Imported =>
          print ("✅ " +:+ package);;
          check_packages s rest missing_packages
      | ImportError _ =>
          print ("❌ " +:+ package);;
          check_packages s rest (missing_packages ++ [package])
      | ImportRaised e => raise e
      end
  end.

Definition test_dependencies (s : Setup) : @M C bool :=
  print (newline +:+ "🧪 测试依赖包...");;
  missing_packages ← check_packages s required_packages [];
  match missing_packages with
  | _ :: _ =>
      print (newline +:+ "❌ 缺少依赖包: " +:+ join ", " missing_packages);;
      print "请运行: pip install -r requirements.txt";;
      mret false
  | [] =>
      print "✅ 所有依赖包检查通过";;
      mret true
  end.

(** [os.getenv("API_KEY") and os.getenv("API_KEY") != "your_deepseek_api_key_here"] *)
Definition api_key_configured (environ : gmap string string) : bool :=
  negb (not_getenv environ "API_KEY")
  && negb (bool_decide (environ !! "API_KEY" = Some "your_deepseek_api_key_here")).

(** [main()]: [Some b] inside stands for [return b] from within the [try]. *)
Definition main (s : Setup) : @M C bool :=
  print "🌟 WeaTrip MCP 系统测试";;
  print (repeat_string "=" 50);;
  ok ← test_dependencies s;
  if negb ok then mret false else
  ok ← test_web_server_import s;
  if negb ok then mret false else
  ok ← test_weather_server s;
  if negb ok then mret false else
  print (newline +:+ "⚠️  MCP客户端测试需要配置API密钥");;
  print "如果已配置.env文件，将进行MCP客户端测试...";;
  returned ←
    try_except
      (import_ s "dotenv";;
       environ ← eval (load_dotenv s);
       if api_key_configured environ then
         ok ← test_mcp_client s;
         if negb ok then mret (Some false) else mret None
       else
         print "⏭️  跳过MCP客户端测试（未配置API密钥）";;
         mret None)
      (λ e,
         print ("⏭️  跳过MCP客户端测试: " +:+ str e);;
         mret None);
  match returned with
  | Some result => mret result
  | None =>
      print (newline +:+ "🎉 系统测试完成！");;
      print "✅ 所有核心组件工作正常";;
      print "🚀 可以运行 python start_server.py 启动服务器";;
      mret true
  end.

End Tests.
End test_system.

(** ** Scripted clients

    Concrete implementations of the client interface, to run the handlers
    on. The state of a scripted client is its session and the queries it
    has been given; its script fixes what each method does. *)

Record StubState : Type := {
  live : option ClientSession;
  queries : list string
}.

Record Script : Type := {
  on_new : result exc unit;
  on_connect : result exc unit;
  on_query : string → result exc string;
  loses_connection : bool;
  on_cleanup : result exc unit
}.

Definition scripted (s : Script) : MCPClient StubState := {|
  session := live;
  DeepSeekMCPClient :=
    match on_new s with
    | Return _ => Return {| live := None; queries := [] |}
    | Raise e => Raise e
    end;
  connect_to_server c path :=
    (on_connect s,
     match on_connect s with
     | Return _ => {| live := Some (Channel 1); queries := queries c |}
     | Raise _ => c
     end);
  process_query c msg :=
    (on_query s msg,
     {| live := if loses_connection s then None else live c;
        queries := queries c ++ [msg] |});
  cleanup c :=
    (on_cleanup s, {| live := None; queries := queries c |})
|}.

(** A client that works: every query is answered with the same text. *)
Definition answering (text : string) : Script := {|
  on_new := Return tt;
  on_connect := Return tt;
  on_query := λ _, Return text;
  loses_connection := false;
  on_cleanup := Return tt
|}.

(** The module as loaded: no client yet, nothing printed. *)
Definition loaded {C : Type} : World C := {| mcp_client := None; stdout := [] |}.

(** A host with the tool server and the page in place. *)
Definition deployed : Host := {|
  project_root := "/srv/app";
  files := {[ "/srv/app/weather/weather.py"; "/srv/app/web/index.html" ]}
|}.


(** ** Responses, predicates and traces the properties speak of *)

(** The two failure responses of [chat_endpoint]. *)
Definition not_initialized : ChatResponse :=
  {| reply := "❌ 服务器未正确初始化，请稍后再试";
     success := false;
     error := Some "MCP客户端未初始化" |}.

Definition failed (e : exc) : ChatResponse :=
  {| reply := "❌ 抱歉，处理您的请求时出现了错误，请稍后再试";
     success := false;
     error := Some ("处理请求时出错: " +:+ str e) |}.


Section Predicates.
Context {C : Type} {impl : MCPClient C}.


(** [start] completed: the client was built, the tool server file is
    there and the connection was made. *)
Inductive start_completed (h : Host) : Prop :=
| completed c c' :
    DeepSeekMCPClient = Return c →
    exists_ h (weather_server_path h) = true →
    connect_to_server c (weather_server_path h) = (Return tt, c') →
    start_completed h.

(** Startup fails: building the client or connecting raises an error that
    derives from [Exception], or the tool server file is not there. *)
Inductive startup_fails (h : Host) : Prop :=
| constructor_raises e :
    DeepSeekMCPClient = Raise e →
    isinstance_Exception e = true →
    startup_fails h
| path_missing c :
    DeepSeekMCPClient = Return c →
    exists_ h (weather_server_path h) = false →
    startup_fails h
| connect_raises c e c' :
    DeepSeekMCPClient = Return c →
    exists_ h (weather_server_path h) = true →
    connect_to_server c (weather_server_path h) = (Raise e, c') →
    isinstance_Exception e = true →
    startup_fails h.

(** The open channel to the tool server is there. *)
Definition connection_live (w : World C) : Prop :=
  ∃ c s, mcp_client w = Some c ∧ session c = Some s.


Definition ready (w : World C) : option json :=
  dict_get (health_check w) "mcp_client_ready".

End Predicates.

(** The status the script exits with, when it calls [sys.exit]. *)
Fixpoint exit_status (trace : list event) : option Z :=
  match trace with
  | [] => None
  | SysExit code :: _ => Some code
  | _ :: rest => exit_status rest
  end.

(** Whether the HTTP server is launched. *)
Fixpoint launched (trace : list event) : bool :=
  match trace with
  | [] => false
  | UvicornRun _ _ _ _ _ :: _ => true
  | _ :: rest => launched rest
  end.

Definition no_model_env : gmap string string :=
  {[ "API_KEY" := "sk-0"; "BASE_URL" := "https://api.deepseek.com" ]}.

(** ** More scripted clients and hosts *)


(** A client whose query fails with an ordinary error. *)
Definition failing_query (text : string) : Script := {|
  on_new := Return tt;
  on_connect := Return tt;
  on_query := λ _, Raise (Raised true text);
  loses_connection := false;
  on_cleanup := Return tt
|}.

(** The world after the startup hook has run on a host. *)
Definition started {C : Type} {impl : MCPClient C} (h : Host) : World C :=
  (startup_event h loaded).2.

(** A client that loses its connection while answering. *)
Definition dropped_connection : Script := {|
  on_new := Return tt;
  on_connect := Return tt;
  on_query := λ _, Raise (Raised true "connection lost");
  loses_connection := true;
  on_cleanup := Return tt
|}.



(** ** The server between startup and exit *)

Section Serving.
Context {C : Type} {impl : MCPClient C}.

(** One step of the running server: a chat request is handled, or the
    shutdown hook runs; the step is taken whether the handler returns or
    raises. *)
Inductive serving_step : relation (World C) :=
| chat_step request w : serving_step w (chat_endpoint request w).2
| shutdown_step w : serving_step w (shutdown_event w).2.


End Serving.

(** An environment where [MODEL] is set to the empty string. *)
Definition empty_model_env : gmap string string :=
  {[ "API_KEY" := "sk-0"; "BASE_URL" := "https://api.deepseek.com";
     "MODEL" := EmptyString ]}.

(** A client whose connection attempt is cancelled. *)
Definition cancelled_connect : Script := {|
  on_new := Return tt;
  on_connect := Raise (Raised false EmptyString);
  on_query := λ _, Return "ok";
  loses_connection := false;
  on_cleanup := Return tt
|}.

(** ** What a run of the test script depends on *)

(** The first import of the loop that raises something other than
    [ImportError], if any. *)
Fixpoint first_raise (s : Setup) (packages : list string) : option exc :=
  match packages with
  | [] => None
  | package :: rest =>
      match import_module s (test_system.module_name package) with
      | ImportRaised e => Some e
      | _ => first_raise s rest
      end
  end.

(** The packages whose import raises [ImportError]. *)
Definition import_fails (s : Setup) (package : string) : bool :=
  match import_module s (test_system.module_name package) with
  | ImportError _ => true
  | _ => false
  end.

Section Runs.
Context {C : Type} {impl : MCPClient C}.

(** The queries put to a client one after another, up to the first that
    raises: the state the client is left in, and the error if there is
    one. *)
Fixpoint first_failure (c : C) (queries : list string) : C * option exc :=
  match queries with
  | [] => (c, None)
  | query :: rest =>
      match process_query c query with
      | (Return _, c') => first_failure c' rest
      | (Raise e, c') => (c', Some e)
      end
  end.

End Runs.

(** ** The verdicts of the test functions

    What each test function returns, read off the setup and the client
    alone: the worlds they run in only collect the printed lines. *)

(** [try: ... except Exception: return False] around a verdict *)
Definition or_False (r : result exc bool) : result exc bool :=
  match r with
  | Return b => Return b
  | Raise e => if isinstance_Exception e then Return false else Raise e
  end.

(** An [import] statement as an outcome of the handler kind. *)
Definition import_result (s : Setup) (name : string) : result exc unit :=
  match import_module s name with
  | Imported => Return tt
  | ImportError msg => Raise (Raised true msg)
  | ImportRaised e => Raise e
  end.

Definition dependencies_verdict (s : Setup) : result exc bool :=
  match first_raise s test_system.required_packages with
  | Some e => Raise e
  | None =>
      Return (bool_decide
                (List.filter (import_fails s) test_system.required_packages = []))
  end.

Definition web_server_import_verdict (s : Setup) : result exc bool :=
  or_False
    match import_result s "web_server" with
    | Return _ => Return true
    | Raise e => Raise e
    end.

Definition weather_server_verdict (s : Setup) : result exc bool :=
  or_False
    match import_result s "weather" with
    | Raise e => Raise e
    | Return _ =>
        match get_weather s "Beijing" "CN" with
        | Raise e => Raise e
        | Return _ =>
            match get_forecast s "Shanghai" "CN" with
            | Raise e => Raise e
            | Return _ => Return true
            end
        end
    end.

Section Verdicts.
Context {C : Type} {impl : MCPClient C}.

Definition mcp_client_verdict (s : Setup) : result exc bool :=
  or_False
    match DeepSeekMCPClient with
    | Raise e => Raise e
    | Return c =>
        if negb (exists_ (host s) (weather_server_path (host s))) then
          Return false
        else
          match connect_to_server c (weather_server_path (host s)) with
          | (Raise e, _) => Raise e
          | (Return _, c1) =>
              match first_failure c1 test_system.test_queries with
              | (_, Some e) =>
                  if isinstance_Exception e then Return false else Raise e
              | (c2, None) =>
                  match cleanup c2 with
                  | (Raise e, _) => Raise e
                  | (Return _, _) => Return true
                  end
              end
          end
    end.

(** The state the client object of [test_mcp_client] ends in, when the
    function gets as far as building it. *)
Definition mcp_client_left (s : Setup) : option C :=
  match DeepSeekMCPClient with
  | Raise _ => None
  | Return c =>
      if negb (exists_ (host s) (weather_server_path (host s))) then Some c
      else
        match connect_to_server c (weather_server_path (host s)) with
        | (Raise _, c1) => Some c1
        | (Return _, c1) =>
            match first_failure c1 test_system.test_queries with
            | (c2, Some _) => Some c2
            | (c2, None) => Some (cleanup c2).2
            end
        end
  end.

End Verdicts.

Section MainVerdict.
Context {C : Type} {impl : MCPClient C}.

(** The last stage of [main]: the client test runs only with a key in the
    environment that [load_dotenv()] leaves, and an error deriving from
    [Exception] on the way there skips it. *)
Definition client_stage_verdict (s : Setup) : result exc bool :=
  match import_result s "dotenv" with
  | Raise e => if isinstance_Exception e then Return true else Raise e
  | Return _ =>
      match load_dotenv s with
      | Raise e => if isinstance_Exception e then Return true else Raise e
      | Return environ =>
          if test_system.api_key_configured environ
          then mcp_client_verdict s
          else Return true
      end
  end.

Definition main_verdict (s : Setup) : result exc bool :=
  match dependencies_verdict s with
  | Raise e => Raise e
  | Return false => Return false
  | Return true =>
      match web_server_import_verdict s with
      | Raise e => Raise e
      | Return false => Return false
      | Return true =>
          match weather_server_verdict s with
          | Raise e => Raise e
          | Return false => Return false
          | Return true => client_stage_verdict s
          end
      end
  end.

End MainVerdict.

(** A setup where the modules of a set can be imported and nothing else,
    the weather tools answer, and [load_dotenv()] leaves [environ]. *)
Definition installed (h : Host) (modules : gset string)
    (environ : gmap string string) : Setup := {|
  host := h;
  import_module name :=
    if decide (name ∈ modules) then Imported
    else ImportError ("No module named '" +:+ name +:+ "'");
  get_weather city country := Return "22°C, sunny";
  get_forecast city country := Return "sunny, then rain";
  load_dotenv := Return environ
|}.

(** The modules a checkout has after [pip install -r requirements.txt]:
    the distribution [python-dotenv] provides the module [dotenv]. *)
Definition pip_modules : gset string :=
  {[ "fastapi"; "uvicorn"; "mcp"; "openai"; "httpx"; "dotenv";
     "web_server"; "weather" ]}.

(** An environment that still holds the key of the template. *)
Definition placeholder_env : gmap string string :=
  {[ "API_KEY" := "your_deepseek_api_key_here" ]}.

(** A checkout where a module [python_dotenv] can be imported as well. *)
Definition all_modules : gset string := pip_modules ∪ {[ "python_dotenv" ]}.



(** The setups the test script is run on below. *)
Definition template_setup : Setup := installed deployed all_modules placeholder_env.

Section ClientErrors.
Context {C : Type} {impl : MCPClient C}.


End ClientErrors.

(** * Properties *)

(** ** Running a handler *)

Ltac run :=
  unfold chat_endpoint, startup_event, shutdown_event, try_except, call,
    print, get_client, set_client, raise, eval;
  unfold mbind, M_bind, mret, M_ret;
  simpl.

Section ChatEndpoint.
Context {C : Type} {impl : MCPClient C}.

Lemma chat_no_client request (w : World C) :
  mcp_client w = None →
  chat_endpoint request w = (Return not_initialized, w).
Proof. intros Hc. run. rewrite Hc. reflexivity. Qed.

Lemma chat_returns request (w : World C) c text c' :
  mcp_client w = Some c →
  process_query c (message request) = (Return text, c') →
  chat_endpoint request w =
    (Return {| reply := text; success := true; error := None |},
     {| mcp_client := Some c';
        stdout := stdout w ++ ["收到用户消息: " +:+ message request]
                           ++ ["MCP客户端响应: " +:+ text] |}).
Proof.
  intros Hc Hq. run. rewrite Hc, Hq. simpl.
  by rewrite <- (assoc_L (++)).
Qed.

Lemma chat_caught request (w : World C) c e c' :
  mcp_client w = Some c →
  process_query c (message request) = (Raise e, c') →
  isinstance_Exception e = true →
  chat_endpoint request w =
    (Return (failed e),
     {| mcp_client := Some c';
        stdout := stdout w ++ ["收到用户消息: " +:+ message request]
                           ++ ["❌ " +:+ ("处理请求时出错: " +:+ str e)] |}).
Proof.
  intros Hc Hq He. run. rewrite Hc, Hq. simpl. rewrite He. simpl.
  by rewrite <- (assoc_L (++)).
Qed.

Lemma chat_propagates request (w : World C) c e c' :
  mcp_client w = Some c →
  process_query c (message request) = (Raise e, c') →
  isinstance_Exception e = false →
  chat_endpoint request w =
    (Raise e,
     {| mcp_client := Some c';
        stdout := stdout w ++ ["收到用户消息: " +:+ message request] |}).
Proof.
  intros Hc Hq He. run. rewrite Hc, Hq. simpl. by rewrite He.
Qed.

(** Every response the endpoint builds is one of three shapes. *)
Lemma chat_response_shape request (w w' : World C) resp :
  chat_endpoint request w = (Return resp, w') →
  resp = not_initialized
  ∨ (∃ text, resp = {| reply := text; success := true; error := None |})
  ∨ (∃ e, resp = failed e).
Proof.
  destruct (mcp_client w) as [c|] eqn:Hc.
  - destruct (process_query c (message request)) as [[text|e] c'] eqn:Hq.
    + rewrite (chat_returns _ _ _ _ _ Hc Hq). intros [= <- _]. eauto.
    + destruct (isinstance_Exception e) eqn:He.
      * rewrite (chat_caught _ _ _ _ _ Hc Hq He). intros [= <- _]. eauto.
      * rewrite (chat_propagates _ _ _ _ _ Hc Hq He). discriminate.
  - rewrite (chat_no_client _ _ Hc). intros [= <- _]. eauto.
Qed.

End ChatEndpoint.

Section ChatClaims.
Context {C : Type} {impl : MCPClient C}.



(** C8: in every response the chat endpoint returns, [error] is null
    exactly when [success] is true. *)
Theorem chat_response_error_iff_not_success request (w w' : World C) resp :
  chat_endpoint request w = (Return resp, w') →
  error resp = None ↔ success resp = true.
Proof.
  intros Hrun.
  destruct (chat_response_shape _ _ _ _ Hrun) as [->|[[text ->]|[e ->]]];
    simpl; split; done.
Qed.

End ChatClaims.




Lemma chat_response_error_iff_not_success_witness :
  error (failed (Raised true "timed out")) = None ↔
  success (failed (Raised true "timed out")) = true.
Proof.
  eapply (chat_response_error_iff_not_success
            (impl := scripted (failing_query "timed out"))
            {| message := "Beijing weather today" |}
            (started (impl := scripted (failing_query "timed out")) deployed)).
  vm_compute. reflexivity.
Defined.

Section Lifecycle.
Context {C : Type} {impl : MCPClient C}.

Lemma ready_client (w : World C) :
  ready w = Some (JBool true) ↔ is_Some (mcp_client w).
Proof.
  unfold ready, health_check. simpl.
  destruct (mcp_client w); simpl; split;
    try done; try (intros [? [=]]); eauto.
Qed.

Lemma startup_completed h (w : World C) c c' :
  DeepSeekMCPClient = Return c →
  exists_ h (weather_server_path h) = true →
  connect_to_server c (weather_server_path h) = (Return tt, c') →
  ∃ out, startup_event h w = (Return tt, {| mcp_client := Some c'; stdout := out |}).
Proof. intros Hn Hp Hc. run. rewrite Hn. simpl. rewrite Hp, Hc. simpl. eauto. Qed.

Lemma startup_failed h (w : World C) :
  startup_fails h →
  ∃ out, startup_event h w = (Return tt, {| mcp_client := None; stdout := out |}).
Proof.
  intros [e Hn He|c Hn Hp|c e c' Hn Hp Hc He]; run; rewrite Hn; simpl.
  - rewrite He. simpl. eauto.
  - rewrite Hp. simpl. eauto.
  - rewrite Hp, Hc. simpl. rewrite He. simpl. eauto.
Qed.

(** When the hook returns at all, it either completed or failed. *)
Lemma startup_returned h (w w' : World C) :
  startup_event h w = (Return tt, w') →
  start_completed h ∨ startup_fails h.
Proof.
  destruct DeepSeekMCPClient as [c|e] eqn:Hn.
  - destruct (exists_ h (weather_server_path h)) eqn:Hp.
    + destruct (connect_to_server c (weather_server_path h))
        as [[[]|e] c'] eqn:Hc.
      * intros _. left. by econstructor.
      * destruct (isinstance_Exception e) eqn:He.
        -- intros _. right. by eapply connect_raises.
        -- run. rewrite Hn. simpl. rewrite Hp, Hc. simpl. rewrite He.
           discriminate.
    + intros _. right. by eapply path_missing.
  - destruct (isinstance_Exception e) eqn:He.
    + intros _. right. by eapply constructor_raises.
    + run. rewrite Hn. simpl. rewrite He. discriminate.
Qed.

Lemma completed_not_failed h : start_completed h → startup_fails h → False.
Proof.
  intros [c c' Hn Hp Hc] [e Hn' He|d Hn' Hp'|d e d' Hn' Hp' Hc' He]; try congruence.
Qed.


Lemma shutdown_no_client (w : World C) :
  mcp_client w = None → shutdown_event w = (Return tt, w).
Proof. intros Hw. run. by rewrite Hw. Qed.

End Lifecycle.

Section LifecycleClaims.
Context {C : Type} {impl : MCPClient C}.


(** C4, as amended: the readiness field of the health endpoint is true
    exactly when the client handle is set; once the startup hook has
    returned, that is exactly when [start] completed. *)
Theorem health_ready_iff_start_completed h (w w' : World C) :
  startup_event h w = (Return tt, w') →
  (ready w' = Some (JBool true) ↔ is_Some (mcp_client w')) ∧
  (ready w' = Some (JBool true) ↔ start_completed h).
Proof.
  intros Hrun. split; [apply ready_client|].
  rewrite ready_client.
  destruct (startup_returned _ _ _ Hrun) as [Hok|Hfail].
  - split; [done|]. intros _. destruct Hok as [c c' Hn Hp Hc].
    destruct (startup_completed h w c c' Hn Hp Hc) as [out Hrun'].
    rewrite Hrun' in Hrun. simplify_eq. simpl. eauto.
  - destruct (startup_failed h w Hfail) as [out Hrun'].
    rewrite Hrun' in Hrun. simplify_eq. simpl.
    split; [by intros [? [=]]|].
    intros Hok. by destruct (completed_not_failed h Hok Hfail).
Qed.

(** C5: the status endpoint answers [ready] exactly when the client exists
    and its session is present, and [not_ready] in every other state. *)
Theorem status_ready_iff_connection_live (w : World C) :
  (connection_live w →
   dict_get (status_check w) "status" = Some (JStr "ready")) ∧
  (¬ connection_live w →
   dict_get (status_check w) "status" = Some (JStr "not_ready")).
Proof.
  unfold connection_live, status_check.
  destruct (mcp_client w) as [c|]; [destruct (session c) as [s|] eqn:Hs|];
    simpl; split; try done.
  - intros Hn. destruct Hn. eauto.
  - intros (c' & s & [= <-] & Hs'). congruence.
  - intros (c' & s & [=] & _).
Qed.


End LifecycleClaims.

Section Script.

Lemma append_assoc (s1 s2 s3 : string) :
  (s1 +:+ s2) +:+ s3 = s1 +:+ (s2 +:+ s3).
Proof.
  induction s1 as [|a s1 IH]; [reflexivity|].
  exact (f_equal (String a) IH).
Qed.

Lemma unset_not_getenv (environ : gmap string string) var :
  environ !! var = None → not_getenv environ var = true.
Proof. intros Hv. unfold not_getenv. by rewrite Hv. Qed.

Lemma getenv_set (environ : gmap string string) var :
  not_getenv environ var = false →
  ∃ value, environ !! var = Some value ∧ value ≠ EmptyString.
Proof.
  unfold not_getenv. destruct (environ !! var) as [value|]; [|done].
  intros Hne. exists value. split; [done|].
  intros ->. done.
Qed.

(** The script launches the server exactly when none of the three
    variables is falsy, and exits with status 1 otherwise. *)
Lemma main_cases (environ : gmap string string) :
  (Forall (λ var, not_getenv environ var = false) required_env_vars ∧
   launched (main environ) = true ∧ exit_status (main environ) = None)
  ∨ (Exists (λ var, not_getenv environ var = true) required_env_vars ∧
     launched (main environ) = false ∧ exit_status (main environ) = Some 1%Z).
Proof.
  unfold main, required_env_vars. simpl.
  destruct (not_getenv environ "API_KEY") eqn:Hk;
    destruct (not_getenv environ "BASE_URL") eqn:Hu;
    destruct (not_getenv environ "MODEL") eqn:Hm; simpl;
    first [ left; split; [repeat constructor; done|done]
          | right; split; [|done] ].
  all: repeat first [ by apply Exists_cons_hd | apply Exists_cons_tl ].
Qed.

(** C9: if one of [API_KEY], [BASE_URL] and [MODEL] is missing, the script
    exits with status 1 and the HTTP server is not launched; the server is
    launched only when all three are set. *)
Theorem main_requires_env (environ : gmap string string) :
  (∀ var, var ∈ required_env_vars → environ !! var = None →
     exit_status (main environ) = Some 1%Z ∧ launched (main environ) = false)
  ∧ (launched (main environ) = true →
     ∀ var, var ∈ required_env_vars → is_Some (environ !! var)).
Proof.
  destruct (main_cases environ) as [(Hall & Hrun & Hexit)|(Hsome & Hrun & Hexit)].
  - split.
    + intros var Hvar Hunset. apply unset_not_getenv in Hunset.
      rewrite Forall_forall in Hall. rewrite (Hall var Hvar) in Hunset. done.
    + intros _ var Hvar. rewrite Forall_forall in Hall.
      destruct (getenv_set environ var (Hall var Hvar)) as (value & -> & _).
      eauto.
  - split; [done|]. rewrite Hrun. done.
Qed.

(** C10: [GET /] answers with the file [web/index.html] under the project
    root when it exists, and raises [HTTPException] with status 404
    otherwise. *)
Theorem serve_index_file_or_404 (h : Host) :
  index_path h = project_root h +:+ "/web/index.html" ∧
  (index_path h ∈ files h →
   serve_index h = Return (FileResponse (index_path h))) ∧
  (index_path h ∉ files h →
   ∃ e, serve_index h = Raise e ∧ status_code e = 404%Z).
Proof.
  split.
  - unfold index_path, path_join.
    rewrite !append_assoc. reflexivity.
  - unfold serve_index, exists_. split; intros Hin.
    + by rewrite bool_decide_eq_true_2.
    + rewrite bool_decide_eq_false_2 by done. eauto.
Qed.

End Script.

(** ** The claims on concrete runs *)



(** C4, counterexample: after a successful start, a query during which the
    connection is lost leaves the client without a session, and the health
    endpoint still reports the client as ready. *)
Lemma health_ready_without_connection :
  let w := (chat_endpoint (impl := scripted dropped_connection)
              {| message := "Beijing weather today" |}
              (started (impl := scripted dropped_connection) deployed)).2 in
  start_completed (impl := scripted dropped_connection) deployed ∧
  ready w = Some (JBool true) ∧
  ¬ connection_live (impl := scripted dropped_connection) w.
Proof.
  intros w. split; [|split].
  - eapply completed; vm_compute; reflexivity.
  - vm_compute. reflexivity.
  - intros (c & s & Hc & Hs). vm_compute in Hc.
    injection Hc as <-. discriminate Hs.
Qed.

Lemma health_ready_iff_start_completed_witness :
  let w' := started (impl := scripted (answering "ok")) deployed in
  startup_event (impl := scripted (answering "ok")) deployed loaded
    = (Return tt, w') ∧
  (ready w' = Some (JBool true)
     ↔ is_Some (mcp_client w')) ∧
  (ready w' = Some (JBool true)
     ↔ start_completed (impl := scripted (answering "ok")) deployed).
Proof.
  intros w'.
  assert (Hrun : startup_event (impl := scripted (answering "ok"))
                   deployed loaded = (Return tt, w')).
  { vm_compute. reflexivity. }
  split; [exact Hrun|].
  exact (health_ready_iff_start_completed
           (impl := scripted (answering "ok")) deployed loaded w' Hrun).
Defined.

Lemma status_ready_iff_connection_live_witness :
  let w := started (impl := scripted (answering "ok")) deployed in
  connection_live (impl := scripted (answering "ok")) w ∧
  dict_get (status_check (impl := scripted (answering "ok")) w) "status"
    = Some (JStr "ready").
Proof.
  intros w.
  assert (Hlive : connection_live (impl := scripted (answering "ok")) w).
  { eexists _, _. split; vm_compute; reflexivity. }
  split; [exact Hlive|].
  exact (proj1 (status_ready_iff_connection_live
                  (impl := scripted (answering "ok")) w) Hlive).
Defined.



Lemma main_requires_env_witness :
  "MODEL" ∈ required_env_vars ∧
  no_model_env !! "MODEL" = None ∧
  exit_status (main no_model_env) = Some 1%Z ∧
  launched (main no_model_env) = false.
Proof.
  assert (Hvar : "MODEL" ∈ required_env_vars).
  { unfold required_env_vars. repeat constructor. }
  assert (Hunset : no_model_env !! "MODEL" = None).
  { vm_compute. reflexivity. }
  split; [exact Hvar|]. split; [exact Hunset|].
  exact (proj1 (main_requires_env no_model_env) "MODEL" Hvar Hunset).
Defined.

Lemma serve_index_file_or_404_witness :
  index_path deployed ∈ files deployed ∧
  serve_index deployed = Return (FileResponse (index_path deployed)).
Proof.
  assert (Hin : index_path deployed ∈ files deployed).
  { apply (bool_decide_unpack _). vm_compute. exact I. }
  split; [exact Hin|].
  exact (proj1 (proj2 (serve_index_file_or_404 deployed)) Hin).
Defined.

(** * Further properties of the web server *)

Section ServerExtras.
Context {C : Type} {impl : MCPClient C}.

Lemma chat_keeps_handle request (w : World C) :
  is_Some (mcp_client (chat_endpoint request w).2) ↔ is_Some (mcp_client w).
Proof.
  destruct (mcp_client w) as [c|] eqn:Hc.
  - destruct (process_query c (message request)) as [[text|e] c'] eqn:Hq.
    + rewrite (chat_returns _ _ _ _ _ Hc Hq). simpl. split; eauto.
    + destruct (isinstance_Exception e) eqn:He.
      * rewrite (chat_caught _ _ _ _ _ Hc Hq He). simpl. split; eauto.
      * rewrite (chat_propagates _ _ _ _ _ Hc Hq He). simpl. split; eauto.
  - rewrite (chat_no_client _ _ Hc). simpl. by rewrite Hc.
Qed.

Lemma shutdown_keeps_handle (w : World C) :
  is_Some (mcp_client (shutdown_event w).2) ↔ is_Some (mcp_client w).
Proof.
  destruct (mcp_client w) as [c|] eqn:Hc.
  - run. rewrite Hc. destruct (cleanup c) as [[[]|e] c']; simpl.
    + split; eauto.
    + destruct (isinstance_Exception e); simpl; split; eauto.
  - rewrite (shutdown_no_client _ Hc). simpl. by rewrite Hc.
Qed.

Lemma ready_handle (w w' : World C) :
  (is_Some (mcp_client w') ↔ is_Some (mcp_client w)) → ready w' = ready w.
Proof.
  unfold ready, health_check. simpl.
  destruct (mcp_client w), (mcp_client w'); simpl; intros [H1 H2]; try done.
  - assert (is_Some (@None C)) as [? [=]] by eauto.
  - assert (is_Some (@None C)) as [? [=]] by eauto.
Qed.

(** X1: once the server is running, nothing changes what the health
    endpoint reports: neither chat requests (answered, failed or
    propagating) nor the shutdown hook set or clear the client handle. *)
Theorem ready_invariant (w w' : World C) :
  rtc serving_step w w' → ready w' = ready w.
Proof.
  induction 1 as [w|w w1 w' Hstep _ IH]; [done|].
  rewrite IH. apply ready_handle.
  destruct Hstep; [apply chat_keeps_handle|apply shutdown_keeps_handle].
Qed.

(** X2: when the status endpoint answers [ready], the health endpoint
    reports the client as ready too. *)
Theorem status_ready_health_ready (w : World C) :
  dict_get (status_check w) "status" = Some (JStr "ready") →
  ready w = Some (JBool true).
Proof.
  unfold status_check, ready, health_check.
  destruct (mcp_client w) as [c|]; simpl; [done|].
  discriminate.
Qed.

(** X3: a startup that is interrupted while connecting (the error does not
    derive from [Exception]) raises and leaves the half-built client in
    the handle: the health endpoint then reports ready although [start]
    did not complete. *)
Theorem startup_interrupted_keeps_client h (w : World C) c e c' :
  DeepSeekMCPClient = Return c →
  exists_ h (weather_server_path h) = true →
  connect_to_server c (weather_server_path h) = (Raise e, c') →
  isinstance_Exception e = false →
  (startup_event h w).1 = Raise e ∧
  mcp_client (startup_event h w).2 = Some c' ∧
  ready (startup_event h w).2 = Some (JBool true) ∧
  ¬ start_completed h.
Proof.
  intros Hn Hp Hc He.
  assert (Hrun : startup_event h w =
    (Raise e, {| mcp_client := Some c';
                 stdout := stdout w ++ ["正在初始化MCP客户端..."] |})).
  { run. rewrite Hn. simpl. rewrite Hp, Hc. simpl. by rewrite He. }
  rewrite Hrun. simpl. repeat split; try done.
  intros [d d' Hn' _ Hc']. congruence.
Qed.




End ServerExtras.

Section ScriptExtras.

Lemma not_getenv_false (environ : gmap string string) var :
  not_getenv environ var = false ↔
  ∃ value, environ !! var = Some value ∧ value ≠ EmptyString.
Proof.
  split; [apply getenv_set|].
  intros (value & Hv & Hne). unfold not_getenv. rewrite Hv.
  destruct value; [done|reflexivity].
Qed.

(** X6: the script launches the server exactly when each of [API_KEY],
    [BASE_URL] and [MODEL] is set to a non-empty value; a variable set to
    the empty string counts as missing. When it does not launch, it exits
    with status 1. *)
Theorem main_launches_iff_all_nonempty (environ : gmap string string) :
  (launched (main environ) = true ↔
   ∀ var, var ∈ required_env_vars →
     ∃ value, environ !! var = Some value ∧ value ≠ EmptyString)
  ∧ (launched (main environ) = false → exit_status (main environ) = Some 1%Z).
Proof.
  destruct (main_cases environ) as [(Hall & Hrun & Hexit)|(Hsome & Hrun & Hexit)].
  - rewrite Hrun. split; [|done]. split; [|done].
    intros _ var Hvar. rewrite Forall_forall in Hall.
    by apply not_getenv_false, Hall.
  - rewrite Hrun. split; [|done]. split; [done|].
    intros Hall. apply Exists_exists in Hsome as (var & Hvar & Hmiss).
    apply Hall, not_getenv_false in Hvar. congruence.
Qed.

Lemma append_inj_prefix (p a b : string) : p +:+ a = p +:+ b → a = b.
Proof.
  induction p as [|x p IH]; [done|].
  intros Heq. apply IH. by injection Heq.
Qed.

(** X7: the lines the script prints under the missing-variables heading
    name exactly the required variables that are unset or empty. *)
Theorem main_reports_missing (environ : gmap string string) var :
  Printed ("   - " +:+ var) ∈ main environ ↔
  var ∈ required_env_vars ∧ not_getenv environ var = true.
Proof.
  unfold main, required_env_vars. simpl.
  destruct (not_getenv environ "API_KEY") eqn:Hk;
    destruct (not_getenv environ "BASE_URL") eqn:Hu;
    destruct (not_getenv environ "MODEL") eqn:Hm; simpl.
  all: rewrite ?elem_of_cons, ?elem_of_nil.
  all: split;
    [ intros Hin; repeat destruct Hin as [Hin|Hin]; try done;
      try discriminate Hin;
      try (injection Hin as Hin; apply append_inj_prefix in Hin as ->; tauto)
    | intros [Hvar Hmiss];
      repeat destruct Hvar as [->|Hvar]; try done; try congruence; tauto ].
Qed.

End ScriptExtras.

(** * Properties of the test script *)

Ltac run_test :=
  unfold test_system.test_dependencies, test_system.test_web_server_import,
    test_system.test_weather_server, test_system.test_mcp_client,
    test_system.import_, test_system.call_then,
    try_except, call, print, get_client, set_client, raise, eval;
  unfold mbind, M_bind, mret, M_ret;
  simpl.

Section Dependencies.
Context {C : Type} {impl : MCPClient C}.

(** The loop over the packages: it stops at the first import that raises
    something other than [ImportError], and otherwise adds the packages
    whose import fails, in order. It prints and leaves the client alone. *)
Lemma check_packages_run s packages missing_packages (w : World C) :
  ∃ out,
    test_system.check_packages s packages missing_packages w =
      (match first_raise s packages with
       | Some e => Raise e
       | None =>
           Return (missing_packages ++ List.filter (import_fails s) packages)%list
       end,
       {| mcp_client := mcp_client w; stdout := (stdout w ++ out)%list |}).
Proof.
  revert missing_packages w.
  induction packages as [|package packages IH]; intros missing_packages w.
  - exists []. simpl. unfold mret, M_ret. rewrite !app_nil_r.
    by destruct w.
  - simpl. unfold import_fails at 1.
    destruct (import_module s (test_system.module_name package)) as [|msg|e].
    + unfold mbind, M_bind, print. simpl.
      edestruct IH as [out ->]. simpl.
      eexists. by rewrite <- (assoc_L (++)).
    + unfold mbind, M_bind, print. simpl.
      edestruct IH as [out ->]. simpl.
      eexists. by rewrite <- !(assoc_L (++)).
    + exists []. unfold raise. rewrite app_nil_r. by destruct w.
Qed.

Lemma test_dependencies_run s (w : World C) :
  ∃ out,
    test_system.test_dependencies s w =
      (match first_raise s test_system.required_packages with
       | Some e => Raise e
       | None =>
           Return (bool_decide
                     (List.filter (import_fails s)
                        test_system.required_packages = []))
       end,
       {| mcp_client := mcp_client w; stdout := (stdout w ++ out)%list |}).
Proof.
  unfold test_system.test_dependencies.
  generalize test_system.required_packages as packages. intros packages.
  unfold mbind, M_bind, print. simpl.
  edestruct check_packages_run as [out ->].
  destruct (first_raise s packages) as [e|].
  - simpl. eexists. by rewrite <- (assoc_L (++)).
  - rewrite app_nil_l.
    destruct (List.filter (import_fails s) packages)
      as [|package missing]; run_test.
    + eexists. by rewrite <- !(assoc_L (++)).
    + eexists. by rewrite <- !(assoc_L (++)).
Qed.

Lemma first_raise_None s packages :
  first_raise s packages = None ↔
  Forall (λ package,
    ∀ e, import_module s (test_system.module_name package) ≠ ImportRaised e)
    packages.
Proof.
  induction packages as [|package packages IH]; simpl.
  - split; [constructor|done].
  - rewrite Forall_cons, <- IH.
    destruct (import_module s (test_system.module_name package)) as [|msg|e].
    + split; [|tauto]. intros ->. split; [|done]. intros ? [=].
    + split; [|tauto]. intros ->. split; [|done]. intros ? [=].
    + split; [done|]. intros [Hne _]. by destruct (Hne e).
Qed.

Lemma no_import_fails s packages :
  List.filter (import_fails s) packages = [] ↔
  Forall (λ package,
    ∀ msg, import_module s (test_system.module_name package) ≠ ImportError msg)
    packages.
Proof.
  induction packages as [|package packages IH]; simpl.
  - split; [constructor|done].
  - rewrite Forall_cons, <- IH. unfold import_fails at 1.
    destruct (import_module s (test_system.module_name package)) as [|msg|e].
    + split; [|tauto]. intros ->. split; [|done]. intros ? [=].
    + split; [done|]. intros [Hne _]. by destruct (Hne msg).
    + split; [|tauto]. intros ->. split; [|done]. intros ? [=].
Qed.

Lemma dependencies_verdict_true s :
  dependencies_verdict s = Return true ↔
  ∀ name,
    name ∈ ["fastapi"; "uvicorn"; "mcp"; "openai"; "httpx"; "python_dotenv"] →
    import_module s name = Imported.
Proof.
  unfold dependencies_verdict.
  change ["fastapi"; "uvicorn"; "mcp"; "openai"; "httpx"; "python_dotenv"]
    with (test_system.module_name <$> test_system.required_packages).
  generalize test_system.required_packages. intros packages.
  split.
  - intros Hrun name Hname.
    apply list_elem_of_fmap in Hname as (package & -> & Hpackage).
    destruct (first_raise s packages) eqn:Hraise;
      [done|].
    injection Hrun as Hrun. apply bool_decide_eq_true_1 in Hrun.
    apply first_raise_None in Hraise. apply no_import_fails in Hrun.
    rewrite Forall_forall in Hraise, Hrun.
    specialize (Hraise package Hpackage). specialize (Hrun package Hpackage).
    destruct (import_module s (test_system.module_name package));
      [done|by destruct (Hrun msg)|by destruct (Hraise e)].
  - intros Hall.
    assert (Hok : Forall (λ package,
              import_module s (test_system.module_name package) = Imported)
              packages).
    { apply Forall_forall. intros package Hpackage. apply Hall.
      apply list_elem_of_fmap. eauto. }
    assert (first_raise s packages = None) as ->.
    { apply first_raise_None. eapply Forall_impl; [exact Hok|].
      simpl. intros package -> e [=]. }
    rewrite bool_decide_eq_true_2; [done|].
    apply no_import_fails. eapply Forall_impl; [exact Hok|].
    simpl. intros package -> msg [=].
Qed.

(** X8: [test_dependencies] returns [True] exactly when each of the
    modules [fastapi], [uvicorn], [mcp], [openai], [httpx] and
    [python_dotenv] can be imported: for the package [python-dotenv] the
    name it tries is [python_dotenv]. *)
Theorem test_dependencies_passes_iff s (w : World C) :
  (test_system.test_dependencies s w).1 = Return true ↔
  ∀ name,
    name ∈ ["fastapi"; "uvicorn"; "mcp"; "openai"; "httpx"; "python_dotenv"] →
    import_module s name = Imported.
Proof.
  destruct (test_dependencies_run s w) as [out ->].
  apply dependencies_verdict_true.
Qed.

(** X9: an import that raises something other than [ImportError] is not
    counted as a missing package: [test_dependencies] raises exactly when
    the import of one of its packages does that. *)
Theorem test_dependencies_raises_iff s (w : World C) :
  (∃ e, (test_system.test_dependencies s w).1 = Raise e) ↔
  ∃ package e,
    package ∈ test_system.required_packages ∧
    import_module s (test_system.module_name package) = ImportRaised e.
Proof.
  destruct (test_dependencies_run s w) as [out ->]. cbn [fst].
  generalize test_system.required_packages. intros packages.
  destruct (first_raise s packages) as [e|] eqn:Hraise.
  - split; [|eauto]. intros _.
    assert (¬ Forall (λ package, ∀ e,
              import_module s (test_system.module_name package)
                ≠ ImportRaised e) packages) as Hnot.
    { rewrite <- first_raise_None. congruence. }
    assert (Exists (λ package, ¬ ∀ e,
              import_module s (test_system.module_name package)
                ≠ ImportRaised e) packages) as Hex.
    { apply not_Forall_Exists; [|exact Hnot]. intros package.
      destruct (import_module s (test_system.module_name package))
        as [|msg|e'].
      - left. intros ? [=].
      - left. intros ? [=].
      - right. intros Hne. by destruct (Hne e'). }
    apply Exists_exists in Hex as (package & Hpackage & Hex).
    destruct (import_module s (test_system.module_name package))
      as [|msg|e'] eqn:Himp; [destruct Hex; intros ? [=]..|].
    by exists package, e'.
  - split; [intros [e [=]]|].
    intros (package & e & Hpackage & Himp).
    apply first_raise_None in Hraise. rewrite Forall_forall in Hraise.
    by destruct (Hraise package Hpackage e).
Qed.

End Dependencies.

Section ClientTest.
Context {C : Type} {impl : MCPClient C}.

(** The loop over the queries stops at the first one that raises; the
    client is left as that query left it. *)
Lemma run_queries_run c queries (w : World C) :
  mcp_client w = Some c →
  ∃ out,
    test_system.run_queries c queries w =
      (match (first_failure c queries).2 with
       | None => Return (Some (first_failure c queries).1)
       | Some e => if isinstance_Exception e then Return None else Raise e
       end,
       {| mcp_client := Some (first_failure c queries).1;
          stdout := (stdout w ++ out)%list |}).
Proof.
  revert c w. induction queries as [|query queries IH]; intros c w Hw.
  - exists []. simpl. unfold mret, M_ret. rewrite app_nil_r, <- Hw.
    by destruct w.
  - simpl. run_test.
    destruct (process_query c query) as [[response|e] c'] eqn:Hq; simpl.
    + edestruct (IH c') as [out ->]; [done|]. simpl.
      eexists. by rewrite <- !(assoc_L (++)).
    + destruct (isinstance_Exception e); simpl.
      * eexists. by rewrite <- !(assoc_L (++)).
      * eexists. done.
Qed.

Lemma test_mcp_client_run s (w : World C) :
  ∃ out,
    test_system.test_mcp_client s w =
      (mcp_client_verdict s,
       {| mcp_client := match mcp_client_left s with
                        | Some c => Some c
                        | None => mcp_client w
                        end;
          stdout := (stdout w ++ out)%list |}).
Proof.
  unfold mcp_client_verdict, mcp_client_left, test_system.test_mcp_client.
  generalize test_system.test_queries as queries. intros queries.
  run_test.
  destruct DeepSeekMCPClient as [c|e]; simpl.
  2: { destruct (isinstance_Exception e); simpl; eexists;
       by rewrite <- ?(assoc_L (++)). }
  destruct (exists_ (host s) (weather_server_path (host s))); simpl.
  2: { eexists. by rewrite <- !(assoc_L (++)). }
  destruct (connect_to_server c (weather_server_path (host s)))
    as [[[]|e] c1]; simpl.
  2: { destruct (isinstance_Exception e); simpl; eexists;
       by rewrite <- ?(assoc_L (++)). }
  edestruct (run_queries_run c1 queries) as [out ->]; [done|].
  destruct (first_failure c1 queries) as [c2 [e|]]; simpl.
  - destruct (isinstance_Exception e) eqn:He; simpl; rewrite ?He.
    + eexists. by rewrite <- !(assoc_L (++)).
    + eexists. by rewrite <- !(assoc_L (++)).
  - destruct (cleanup c2) as [[[]|e] c3]; simpl.
    + eexists. by rewrite <- !(assoc_L (++)).
    + destruct (isinstance_Exception e); simpl; eexists;
        by rewrite <- ?(assoc_L (++)).
Qed.

End ClientTest.

Section Stages.
Context {C : Type} {impl : MCPClient C}.

Lemma test_dependencies_verdict s (w : World C) :
  ∃ out,
    test_system.test_dependencies s w =
      (dependencies_verdict s,
       {| mcp_client := mcp_client w; stdout := (stdout w ++ out)%list |}).
Proof. apply test_dependencies_run. Qed.

Lemma test_web_server_import_run s (w : World C) :
  ∃ out,
    test_system.test_web_server_import s w =
      (web_server_import_verdict s,
       {| mcp_client := mcp_client w; stdout := (stdout w ++ out)%list |}).
Proof.
  unfold web_server_import_verdict, import_result. run_test.
  destruct (import_module s "web_server") as [|msg|e]; simpl.
  - eexists. by rewrite <- !(assoc_L (++)).
  - eexists. by rewrite <- !(assoc_L (++)).
  - destruct (isinstance_Exception e); simpl; eexists;
      by rewrite <- ?(assoc_L (++)).
Qed.

Lemma test_weather_server_run s (w : World C) :
  ∃ out,
    test_system.test_weather_server s w =
      (weather_server_verdict s,
       {| mcp_client := mcp_client w; stdout := (stdout w ++ out)%list |}).
Proof.
  unfold weather_server_verdict, import_result. run_test.
  destruct (import_module s "weather") as [|msg|e]; simpl.
  - destruct (get_weather s "Beijing" "CN") as [weather_result|e]; simpl.
    + destruct (get_forecast s "Shanghai" "CN") as [forecast_result|e]; simpl.
      * eexists. by rewrite <- !(assoc_L (++)).
      * destruct (isinstance_Exception e); simpl; eexists;
          by rewrite <- ?(assoc_L (++)).
    + destruct (isinstance_Exception e); simpl; eexists;
        by rewrite <- ?(assoc_L (++)).
  - eexists. by rewrite <- !(assoc_L (++)).
  - destruct (isinstance_Exception e); simpl; eexists;
      by rewrite <- ?(assoc_L (++)).
Qed.

End Stages.

Section Main.
Context {C : Type} {impl : MCPClient C}.

#[local] Arguments test_system.test_dependencies : simpl never.
#[local] Arguments test_system.test_web_server_import : simpl never.
#[local] Arguments test_system.test_weather_server : simpl never.
#[local] Arguments test_system.test_mcp_client : simpl never.

Lemma or_False_raise r e :
  or_False r = Raise e → isinstance_Exception e = false.
Proof.
  destruct r as [b|e']; simpl; [done|].
  destruct (isinstance_Exception e') eqn:He; [done|]. by intros [= <-].
Qed.

(** [main] returns the verdict of its stages; unless the client test runs,
    the client slot is not touched. *)
Lemma main_run s (w : World C) :
  ∃ w',
    test_system.main s w = (main_verdict s, w') ∧
    ((∀ environ, import_module s "dotenv" = Imported →
        load_dotenv s = Return environ →
        test_system.api_key_configured environ = false) →
     mcp_client w' = mcp_client w).
Proof.
  unfold main_verdict, client_stage_verdict, import_result, test_system.main.
  unfold test_system.import_, try_except, raise, eval.
  unfold mbind, M_bind, mret, M_ret, print. simpl.
  edestruct (test_dependencies_verdict (C:=C)) as [out1 ->].
  destruct (dependencies_verdict s) as [[]|e]; simpl; [|by eauto..].
  edestruct (test_web_server_import_run (C:=C)) as [out2 ->].
  destruct (web_server_import_verdict s) as [[]|e]; simpl; [|by eauto..].
  edestruct (test_weather_server_run (C:=C)) as [out3 ->].
  destruct (weather_server_verdict s) as [[]|e]; simpl; [|by eauto..].
  destruct (import_module s "dotenv") as [|msg|e] eqn:Hdotenv; simpl.
  - destruct (load_dotenv s) as [environ|e] eqn:Hload; simpl.
    + destruct (test_system.api_key_configured environ) eqn:Hkey; simpl.
      * edestruct test_mcp_client_run as [out4 ->].
        destruct (mcp_client_verdict s) as [[]|e] eqn:Hverdict; simpl.
        -- eexists. split; [done|]. intros Hskip.
           specialize (Hskip environ eq_refl eq_refl). congruence.
        -- eexists. split; [done|]. intros Hskip.
           specialize (Hskip environ eq_refl eq_refl). congruence.
        -- destruct (isinstance_Exception e) eqn:He; simpl.
           ++ apply or_False_raise in Hverdict. congruence.
           ++ eexists. split; [done|]. intros Hskip.
              specialize (Hskip environ eq_refl eq_refl). congruence.
      * eexists. split; [done|]. done.
    + destruct (isinstance_Exception e); simpl; eexists; split; done.
  - eexists. split; done.
  - destruct (isinstance_Exception e); simpl; eexists; split; done.
Qed.

End Main.

Section TestClaims.
Context {C : Type} {impl : MCPClient C}.





Lemma weather_server_verdict_true s :
  weather_server_verdict s = Return true ↔
  import_module s "weather" = Imported ∧
  (∃ text, get_weather s "Beijing" "CN" = Return text) ∧
  (∃ text, get_forecast s "Shanghai" "CN" = Return text).
Proof.
  unfold weather_server_verdict, import_result.
  destruct (import_module s "weather") as [|msg|e]; simpl.
  - destruct (get_weather s "Beijing" "CN") as [weather_result|e]; simpl.
    + destruct (get_forecast s "Shanghai" "CN") as [forecast_result|e]; simpl.
      * split; [|done]. intros _. eauto.
      * split; [by destruct (isinstance_Exception e)|].
        intros (_ & _ & text & [=]).
    + split; [by destruct (isinstance_Exception e)|].
      intros (_ & (text & [=]) & _).
  - split; [done|]. intros ([=] & _).
  - split; [by destruct (isinstance_Exception e)|]. intros ([=] & _).
Qed.


End TestClaims.

Section MainClaims.
Context {C : Type} {impl : MCPClient C}.

Lemma web_server_import_verdict_true s :
  web_server_import_verdict s = Return true ↔
  import_module s "web_server" = Imported.
Proof.
  unfold web_server_import_verdict, import_result.
  destruct (import_module s "web_server") as [|msg|e]; simpl.
  - done.
  - split; done.
  - split; [by destruct (isinstance_Exception e)|done].
Qed.

Lemma api_key_configured_iff (environ : gmap string string) :
  test_system.api_key_configured environ = true ↔
  ∃ key,
    environ !! "API_KEY" = Some key ∧
    key ≠ EmptyString ∧ key ≠ "your_deepseek_api_key_here".
Proof.
  unfold test_system.api_key_configured, not_getenv.
  destruct (environ !! "API_KEY") as [key|]; simpl.
  - rewrite andb_true_iff, !negb_true_iff, bool_decide_eq_false.
    split.
    + intros [Hne Hph]. exists key. split; [done|]. split.
      * intros ->. done.
      * intros ->. done.
    + intros (? & [= <-] & Hne & Hph). split.
      * by destruct key.
      * intros [=]. done.
  - split; [done|]. intros (? & [=] & _).
Qed.

(** The three stages before the client test all pass. *)
Lemma stages_pass s (w : World C) :
  (test_system.test_dependencies s w).1 = Return true →
  (test_system.test_web_server_import s w).1 = Return true →
  (test_system.test_weather_server s w).1 = Return true →
  main_verdict s = client_stage_verdict s.
Proof.
  destruct (test_dependencies_verdict s w) as [out1 ->].
  destruct (test_web_server_import_run s w) as [out2 ->].
  destruct (test_weather_server_run s w) as [out3 ->].
  cbn [fst]. unfold main_verdict. by intros -> -> ->.
Qed.

(** X14: [main] returns [True] only if the three stages before the client
    test pass: the six modules of [test_dependencies] (among them
    [python_dotenv]), the module [web_server] and the module [weather] can
    be imported, and both weather tools return. *)
Theorem main_passes_only_if_stages_pass s (w : World C) :
  (test_system.main s w).1 = Return true →
  (∀ name,
     name ∈ ["fastapi"; "uvicorn"; "mcp"; "openai"; "httpx"; "python_dotenv"] →
     import_module s name = Imported) ∧
  import_module s "web_server" = Imported ∧
  import_module s "weather" = Imported ∧
  (∃ text, get_weather s "Beijing" "CN" = Return text) ∧
  (∃ text, get_forecast s "Shanghai" "CN" = Return text).
Proof.
  destruct (main_run s w) as (w' & -> & _). cbn [fst]. unfold main_verdict.
  destruct (dependencies_verdict s) as [[]|e] eqn:Hdeps; [|done..].
  destruct (web_server_import_verdict s) as [[]|e] eqn:Hweb; [|done..].
  destruct (weather_server_verdict s) as [[]|e] eqn:Hweather; [|done..].
  intros _.
  split; [exact (proj1 (dependencies_verdict_true s) Hdeps)|].
  split; [exact (proj1 (web_server_import_verdict_true s) Hweb)|].
  exact (proj1 (weather_server_verdict_true s) Hweather).
Qed.

(** X15: when the earlier stages pass and the environment that
    [load_dotenv()] leaves has no [API_KEY], an empty one or the key of the
    template, [main] skips the client test: it returns [True] and builds
    no client. *)
Theorem main_skips_client_test s (w : World C) environ :
  (test_system.test_dependencies s w).1 = Return true →
  (test_system.test_web_server_import s w).1 = Return true →
  (test_system.test_weather_server s w).1 = Return true →
  import_module s "dotenv" = Imported →
  load_dotenv s = Return environ →
  (environ !! "API_KEY" = None
   ∨ environ !! "API_KEY" = Some EmptyString
   ∨ environ !! "API_KEY" = Some "your_deepseek_api_key_here") →
  (test_system.main s w).1 = Return true ∧
  mcp_client (test_system.main s w).2 = mcp_client w.
Proof.
  intros Hdeps Hweb Hweather Hdotenv Hload Hkey.
  assert (test_system.api_key_configured environ = false) as Hskip.
  { apply not_true_iff_false. rewrite api_key_configured_iff.
    intros (key & Hsome & Hne & Hph).
    destruct Hkey as [Hkey|[Hkey|Hkey]]; congruence. }
  destruct (main_run s w) as (w' & -> & Hslot). cbn [fst snd]. split.
  - rewrite (stages_pass s w Hdeps Hweb Hweather).
    unfold client_stage_verdict, import_result.
    by rewrite Hdotenv, Hload, Hskip.
  - apply Hslot. intros environ' _ Hload'. congruence.
Qed.



End MainClaims.

(** ** The further properties on concrete runs *)

Lemma ready_invariant_witness :
  let w := started (impl := scripted (failing_query "timed out")) deployed in
  let w1 := (chat_endpoint (impl := scripted (failing_query "timed out"))
               {| message := "Beijing weather today" |} w).2 in
  let w2 := (shutdown_event (impl := scripted (failing_query "timed out")) w1).2 in
  rtc (serving_step (impl := scripted (failing_query "timed out"))) w w2 ∧
  ready w2 = ready w.
Proof.
  intros w w1 w2.
  assert (Hsteps : rtc (serving_step
                          (impl := scripted (failing_query "timed out"))) w w2).
  { eapply rtc_l; [apply chat_step|].
    eapply rtc_l; [apply shutdown_step|]. apply rtc_refl. }
  split; [exact Hsteps|].
  exact (ready_invariant (impl := scripted (failing_query "timed out"))
           w w2 Hsteps).
Defined.

Lemma status_ready_health_ready_witness :
  let w := started (impl := scripted (answering "ok")) deployed in
  dict_get (status_check (impl := scripted (answering "ok")) w) "status"
    = Some (JStr "ready") ∧
  ready w = Some (JBool true).
Proof.
  intros w.
  assert (Hstatus : dict_get (status_check
                      (impl := scripted (answering "ok")) w) "status"
                    = Some (JStr "ready")).
  { vm_compute. reflexivity. }
  split; [exact Hstatus|].
  exact (status_ready_health_ready
           (impl := scripted (answering "ok")) w Hstatus).
Defined.

Lemma startup_interrupted_keeps_client_witness :
  (startup_event (impl := scripted cancelled_connect) deployed loaded).1
    = Raise (Raised false EmptyString) ∧
  mcp_client (startup_event (impl := scripted cancelled_connect)
                deployed loaded).2
    = Some {| live := None; queries := [] |} ∧
  ready (startup_event (impl := scripted cancelled_connect) deployed loaded).2
    = Some (JBool true) ∧
  ¬ start_completed (impl := scripted cancelled_connect) deployed.
Proof.
  eapply (startup_interrupted_keeps_client
            (impl := scripted cancelled_connect) deployed loaded).
  - vm_compute. reflexivity.
  - vm_compute. reflexivity.
  - simpl. reflexivity.
  - reflexivity.
Defined.





Lemma main_passes_only_if_stages_pass_witness :
  (test_system.main (impl := scripted (answering "ok"))
     template_setup loaded).1 = Return true ∧
  import_module template_setup "python_dotenv" = Imported.
Proof.
  assert (Hrun : (test_system.main (impl := scripted (answering "ok"))
                    template_setup loaded).1 = Return true).
  { vm_compute. reflexivity. }
  split; [exact Hrun|].
  apply (proj1 (main_passes_only_if_stages_pass
                  (impl := scripted (answering "ok"))
                  template_setup loaded Hrun)).
  repeat constructor.
Defined.

Lemma main_skips_client_test_witness :
  (test_system.main (impl := scripted (answering "ok"))
     template_setup loaded).1 = Return true ∧
  mcp_client (test_system.main (impl := scripted (answering "ok"))
                template_setup loaded).2 = None.
Proof.
  eapply (main_skips_client_test (impl := scripted (answering "ok"))
            template_setup loaded placeholder_env).
  - vm_compute. reflexivity.
  - vm_compute. reflexivity.
  - vm_compute. reflexivity.
  - vm_compute. reflexivity.
  - reflexivity.
  - right. right. vm_compute. reflexivity.
Defined.


